(** * Sports Booking API: a shallow embedding of [main.py] and [schemas.py]

    The development follows the two source files:
    - [schemas.py]: the [Sport] and [Booking] models and their field
      constraints;
    - [main.py]: the handlers [list_sports], [create_booking] and
      [list_bookings], over a document store with the two collections
      ["sport"] and ["booking"].

    Python [str] values are modelled as [string] (byte strings), Python
    [int] values as [Z], a MongoDB collection as the list of its documents
    in insertion order, and the module-level [db] handle as an
    [option Database] ([None] when the database is not configured). *)

From Stdlib Require Import ZArith NArith Bool List Ascii String Lia.
From Stdlib Require Import Sorted Permutation.
Import ListNotations.

Open Scope string_scope.
Open Scope Z_scope.

(* ================================================================= *)
(** ** Python string and integer primitives *)

Module Py.

(** [c] is one of the ASCII decimal digits. *)
Definition is_digit (c : ascii) : bool :=
  let n := Z.of_N (N_of_ascii c) in (48 <=? n) && (n <=? 57).

Definition digit_val (c : ascii) : Z := Z.of_N (N_of_ascii c) - 48.

(** ASCII white space as [str.strip] removes it: tab, line feed,
    vertical tab, form feed, carriage return, the four separators
    0x1c-0x1f and the space. *)
Definition is_space (c : ascii) : bool :=
  let n := Z.of_N (N_of_ascii c) in
  ((9 <=? n) && (n <=? 13)) || ((28 <=? n) && (n <=? 32)).

Fixpoint lstrip (s : string) : string :=
  match s with
  | EmptyString => EmptyString
  | String c r => if is_space c then lstrip r else s
  end.

Fixpoint rstrip (s : string) : string :=
  match s with
  | EmptyString => EmptyString
  | String c r =>
      let r' := rstrip r in
      if is_space c && (r' =? EmptyString)%string then EmptyString
      else String c r'
  end.

Definition strip (s : string) : string := rstrip (lstrip s).

(** [s.split(sep)[0]]: the part of [s] before the first [sep], the
    whole of [s] when [sep] does not occur. *)
Fixpoint split_head (sep : ascii) (s : string) : string :=
  match s with
  | EmptyString => EmptyString
  | String c r =>
      if Ascii.eqb c sep then EmptyString else String c (split_head sep r)
  end.

(** The digit part of an integer literal: digits, with single
    underscores allowed between two digits. [after_digit] tells whether
    the previous character was a digit. *)
Fixpoint int_digits (acc : Z) (after_digit : bool) (s : string)
  : option Z :=
  match s with
  | EmptyString => if after_digit then Some acc else None
  | String c r =>
      if is_digit c then int_digits (10 * acc + digit_val c) true r
      else if Ascii.eqb c "_" && after_digit then int_digits acc false r
      else None
  end.

(** [int(s)] in base ten: surrounding white space, an optional sign,
    then the digits; [None] stands for [ValueError]. Bytes outside ASCII
    count neither as digits nor as white space. *)
Definition int (s : string) : option Z :=
  match strip s with
  | String c r =>
      if Ascii.eqb c "+" then int_digits 0 false r
      else if Ascii.eqb c "-" then option_map Z.opp (int_digits 0 false r)
      else int_digits 0 false (String c r)
  | EmptyString => None
  end.

(** Truthiness of an [Optional[str]]: [None] and the empty string are
    falsy. *)
Definition truthy (o : option string) : bool :=
  match o with
  | Some s => negb (s =? EmptyString)%string
  | None => false
  end.

End Py.

(* ================================================================= *)
(** ** [schemas.py] *)

(** [class Sport(BaseModel)]. *)
Record Sport : Type := mkSport {
  key : string;
  name : string;
  courts : Z;
  price_per_hour : Z;
  open_hour : Z;
  close_hour : Z
}.

(** [class Booking(BaseModel)]; [BookingCreate] in [main.py] inherits it
    unchanged. *)
Record Booking : Type := mkBooking {
  customer_name : string;
  phone : string;
  sport : string;
  court : Z;
  date : string;
  start_time : string;
  end_time : string;
  status : string;
  notes : option string;
  total_price : option Z
}.

(** The field constraints of [Sport]:
    [courts >= 1], [price_per_hour >= 0], [0 <= open_hour <= 23],
    [1 <= close_hour <= 24]. *)
Definition Sport_valid (s : Sport) : bool :=
  (1 <=? courts s) && (0 <=? price_per_hour s)
  && (0 <=? open_hour s) && (open_hour s <=? 23)
  && (1 <=? close_hour s) && (close_hour s <=? 24).

(** The pattern [^([01]?[0-9]|2[0-3]):00$] of [start_time] and
    [end_time]: one digit, or [0] or [1] and a digit, or [2] and one of
    [0..3], followed by [":00"] and the end of the string (the anchors
    are those of the whole input, as the validator applies them). *)
Definition time_pattern (s : string) : bool :=
  match s with
  | String a (String b (String c (String d EmptyString))) =>
      Py.is_digit a
      && Ascii.eqb b ":" && Ascii.eqb c "0" && Ascii.eqb d "0"
  | String a (String b (String c (String d (String e EmptyString)))) =>
      (((Ascii.eqb a "0" || Ascii.eqb a "1") && Py.is_digit b)
       || (Ascii.eqb a "2"
           && (Ascii.eqb b "0" || Ascii.eqb b "1"
               || Ascii.eqb b "2" || Ascii.eqb b "3")))
      && Ascii.eqb c ":" && Ascii.eqb d "0" && Ascii.eqb e "0"
  | _ => false
  end.

(** The field constraints of [Booking]: [court >= 1], both times match
    the pattern, [total_price >= 0] when given. *)
Definition Booking_valid (b : Booking) : bool :=
  (1 <=? court b)
  && time_pattern (start_time b) && time_pattern (end_time b)
  && match total_price b with Some t => 0 <=? t | None => true end.

(* ================================================================= *)
(** ** The document store *)

(** A document of the ["sport"] collection: a dictionary in which each of
    the fields of [Sport] may be present or absent. *)
Record SportDoc : Type := mkSportDoc {
  doc_key : option string;
  doc_name : option string;
  doc_courts : option Z;
  doc_price_per_hour : option Z;
  doc_open_hour : option Z;
  doc_close_hour : option Z
}.

Definition ObjectId : Type := N.

(** A document of the ["booking"] collection: the dumped [Booking] under
    its ["_id"]. *)
Record BookingDoc : Type := mkBookingDoc {
  _id : ObjectId;
  fields : Booking
}.

Record Database : Type := mkDatabase {
  sport_coll : list SportDoc;
  booking_coll : list BookingDoc
}.

(** [dict.get(field, default)]. *)
Definition get {A : Type} (field : option A) (default : A) : A :=
  match field with
  | Some v => v
  | None => default
  end.

(** The model built from the document's entries as keyword arguments:
    the four fields without a default are required,
    [open_hour] defaults to 8 and [close_hour] to 22, and the field
    constraints are checked; [None] stands for [ValidationError]. *)
Definition Sport_of_doc (s : SportDoc) : option Sport :=
  match doc_key s, doc_name s, doc_courts s, doc_price_per_hour s with
  | Some k, Some n, Some c, Some p =>
      let m := mkSport k n c p (get (doc_open_hour s) 8)
                 (get (doc_close_hour s) 22) in
      if Sport_valid m then Some m else None
  | _, _, _, _ => None
  end.

(** [db["sport"].find_one({"key": k})]: the first document whose ["key"]
    is [k]. *)
Definition find_one_sport (k : string) (coll : list SportDoc)
  : option SportDoc :=
  find (fun s => match doc_key s with
                 | Some k' => (k' =? k)%string
                 | None => false
                 end) coll.

(** [db["sport"].insert_many(docs)]. *)
Definition insert_many_sport (docs : list SportDoc) (d : Database)
  : Database :=
  mkDatabase (sport_coll d ++ docs) (booking_coll d).

(** The filter of the availability query of [create_booking]:
    same sport, court and date, [start_time < payload.end_time] and
    [end_time > payload.start_time], the two comparisons being the
    store's byte-wise string order. *)
Definition overlap_filter (payload : Booking) (b : BookingDoc) : bool :=
  (sport (fields b) =? sport payload)%string
  && (court (fields b) =? court payload)
  && (date (fields b) =? date payload)%string
  && String.ltb (start_time (fields b)) (end_time payload)
  && String.ltb (start_time payload) (end_time (fields b)).

(** [db["booking"].find_one(...)] with that filter: the first stored
    booking that matches, [None] when there is none. *)
Definition find_one_conflict (payload : Booking) (coll : list BookingDoc)
  : option BookingDoc :=
  find (overlap_filter payload) coll.

(** Modelled from the spec: [create_document] of the module [database],
    which is not among the sources. The spec's Booking Ledger "appends a
    new Booking record; does not itself check availability". The new
    document's ["_id"] is taken to be the number of documents already in
    the collection. *)
Definition create_document_booking (data : Booking) (d : Database)
  : Database :=
  mkDatabase (sport_coll d)
    (booking_coll d
       ++ [mkBookingDoc (N.of_nat (List.length (booking_coll d))) data]).

(** The order of [.sort([("date", 1), ("start_time", 1)])]: by [date],
    ties by [start_time], both as strings. *)
Definition sort_key_leb (a b : BookingDoc) : bool :=
  match String.compare (date (fields a)) (date (fields b)) with
  | Lt => true
  | Gt => false
  | Eq => String.leb (start_time (fields a)) (start_time (fields b))
  end.

Fixpoint sort_insert (b : BookingDoc) (l : list BookingDoc)
  : list BookingDoc :=
  match l with
  | [] => [b]
  | x :: r => if sort_key_leb b x then b :: l else x :: sort_insert b r
  end.

(** The cursor's sort, as an insertion sort. *)
Fixpoint sort_by_date_start (l : list BookingDoc) : list BookingDoc :=
  match l with
  | [] => []
  | b :: r => sort_insert b (sort_by_date_start r)
  end.

(** [str(oid)]: twenty-four hexadecimal digits. *)
Definition hex_digit (n : N) : ascii :=
  ascii_of_N (if (n <? 10)%N then 48 + n else 87 + n)%N.

Fixpoint hex_fixed (width : nat) (n : N) (acc : string) : string :=
  match width with
  | O => acc
  | S w => hex_fixed w (n / 16)%N (String (hex_digit (n mod 16)%N) acc)
  end.

Definition str_oid (o : ObjectId) : string := hex_fixed 24 o EmptyString.

(* ================================================================= *)
(** ** [main.py] *)

(** The failures of the handlers. [ValidationError] is the model
    constructor of [list_sports] rejecting a stored document. *)
Inductive Error : Type :=
| StorageUnavailable
| NotFound
| InvalidRange
| Conflict
| ValidationError.

Definition status_code (e : Error) : Z :=
  match e with
  | StorageUnavailable => 500
  | NotFound => 404
  | InvalidRange => 400
  | Conflict => 409
  | ValidationError => 500
  end.

Inductive Result (A : Type) : Type :=
| Ok (a : A)
| Err (e : Error).
Arguments Ok {A} a.
Arguments Err {A} e.

(** The [defaults] of [list_sports]. *)
Definition defaults : list SportDoc :=
  [ mkSportDoc (Some "futsal") (Some "Futsal") (Some 3) (Some 150000)
      (Some 8) (Some 23);
    mkSportDoc (Some "minisoccer") (Some "Mini Soccer") (Some 2)
      (Some 250000) (Some 8) (Some 23);
    mkSportDoc (Some "badminton") (Some "Badminton") (Some 6) (Some 60000)
      (Some 7) (Some 22) ].

(** The loop over [sports] that appends each document's model to
    [result]. *)
Fixpoint to_models (sports : list SportDoc) : option (list Sport) :=
  match sports with
  | [] => Some []
  | s :: r =>
      match Sport_of_doc s, to_models r with
      | Some m, Some ms => Some (m :: ms)
      | _, _ => None
      end
  end.

(** [GET /sports]. *)
Definition list_sports (db : option Database)
  : Result (list Sport) * option Database :=
  match db with
  | None => (Err StorageUnavailable, db)
  | Some d =>
      let d' := match sport_coll d with
                | [] => insert_many_sport defaults d
                | _ :: _ => d
                end in
      match to_models (sport_coll d') with
      | Some result => (Ok result, Some d')
      | None => (Err ValidationError, Some d')
      end
  end.

(** [int(t.split(":")[0])]. *)
Definition parse_hour (t : string) : option Z :=
  Py.int (Py.split_head ":" t).

(** The [try] block of [create_booking]: both hours, or [None] when one
    of the conversions raises or [end_h <= start_h]. *)
Definition parse_range (payload : Booking) : option (Z * Z) :=
  match parse_hour (start_time payload) with
  | None => None
  | Some start_h =>
      match parse_hour (end_time payload) with
      | None => None
      | Some end_h =>
          if end_h <=? start_h then None else Some (start_h, end_h)
      end
  end.

(** [payload.model_dump()] followed by [data["total_price"] = total]. *)
Definition dump_with_total (payload : Booking) (total : Z) : Booking :=
  mkBooking (customer_name payload) (phone payload) (sport payload)
    (court payload) (date payload) (start_time payload) (end_time payload)
    (status payload) (notes payload) (Some total).

(** [POST /bookings]; on success the response carries [total_price]. *)
Definition create_booking (db : option Database) (payload : Booking)
  : Result Z * option Database :=
  match db with
  | None => (Err StorageUnavailable, db)
  | Some d =>
      match find_one_sport (sport payload) (sport_coll d) with
      | None => (Err NotFound, db)
      | Some sport_doc =>
          match parse_range payload with
          | None => (Err InvalidRange, db)
          | Some (start_h, end_h) =>
              let hours := end_h - start_h in
              let total := hours * get (doc_price_per_hour sport_doc) 0 in
              match find_one_conflict payload (booking_coll d) with
              | Some _ => (Err Conflict, db)
              | None =>
                  let data := dump_with_total payload total in
                  (Ok total, Some (create_document_booking data d))
              end
          end
      end
  end.

(** An element of the response of [list_bookings]: the document with
    ["_id"] replaced by ["id"], its string form. *)
Record BookingItem : Type := mkBookingItem {
  id : string;
  item : Booking
}.

Definition to_item (b : BookingDoc) : BookingItem :=
  mkBookingItem (str_oid (_id b)) (fields b).

(** The [query] of [list_bookings]: a filter that is [None] or the empty
    string is left out. *)
Definition query_filter (sport_q date_q : option string) (b : BookingDoc)
  : bool :=
  (if Py.truthy sport_q
   then (sport (fields b) =? get sport_q EmptyString)%string else true)
  && (if Py.truthy date_q
      then (date (fields b) =? get date_q EmptyString)%string else true).

(** [GET /bookings]. *)
Definition list_bookings (db : option Database)
  (sport_q date_q : option string) : Result (list BookingItem) :=
  match db with
  | None => Err StorageUnavailable
  | Some d =>
      let items :=
        sort_by_date_start
          (filter (query_filter sport_q date_q) (booking_coll d)) in
      Ok (map to_item items)
  end.

(** A sequence of [create_booking] requests, one after the other; the
    responses are dropped. *)
Fixpoint run_requests (db : option Database) (reqs : list Booking)
  : option Database :=
  match reqs with
  | [] => db
  | p :: r => run_requests (snd (create_booking db p)) r
  end.

(* ================================================================= *)
(** ** Notions used in the statements *)

(** The store's order on strings. *)
Definition str_lt (a b : string) : Prop := String.compare a b = Lt.
Definition str_le (a b : string) : Prop := String.compare a b <> Gt.

(** Two bookings on the same sport, court and date. *)
Definition same_slot (a b : Booking) : Prop :=
  sport a = sport b /\ court a = court b /\ date a = date b.

Definition same_slotb (a b : Booking) : bool :=
  (sport a =? sport b)%string && (court a =? court b)
  && (date a =? date b)%string.

(** The hour intervals [[start, end)] of two bookings on the same sport,
    court and date overlap as integers. *)
Definition numeric_overlap (a b : Booking) : bool :=
  same_slotb a b
  && match parse_hour (start_time a), parse_hour (end_time a),
           parse_hour (start_time b), parse_hour (end_time b) with
     | Some sa, Some ea, Some sb, Some eb => (sa <? eb) && (sb <? ea)
     | _, _, _, _ => false
     end.

(** Some two documents of the ledger overlap. *)
Fixpoint double_booked (l : list BookingDoc) : bool :=
  match l with
  | [] => false
  | b :: r =>
      existsb (fun x => numeric_overlap (fields b) (fields x)) r
      || double_booked r
  end.

(** The zero-padded times among those of the schema's pattern: two
    digits, [":00"]. *)
Definition padded_time (s : string) : bool :=
  time_pattern s && (String.length s =? 5)%nat.

(** The order of the response of [list_bookings]: [date] ascending, then
    [start_time] ascending. *)
Definition date_start_le (x y : BookingItem) : Prop :=
  str_lt (date (item x)) (date (item y))
  \/ (date (item x) = date (item y)
      /\ str_le (start_time (item x)) (start_time (item y))).

(** The ledger after [payload] has been stored with [total]. *)
Definition stored (d : Database) (payload : Booking) (total : Z)
  : Database :=
  mkDatabase (sport_coll d)
    (booking_coll d
       ++ [mkBookingDoc (N.of_nat (List.length (booking_coll d)))
             (dump_with_total payload total)]).

(** The three models of [defaults]. *)
Definition default_sports : list Sport :=
  [ mkSport "futsal" "Futsal" 3 150000 8 23;
    mkSport "minisoccer" "Mini Soccer" 2 250000 8 23;
    mkSport "badminton" "Badminton" 6 60000 7 22 ].

(** Every time string that matches the schema's pattern. *)
Definition schema_times : list string :=
  [ "0:00"; "1:00"; "2:00"; "3:00"; "4:00"; "5:00"; "6:00"; "7:00";
    "8:00"; "9:00";
    "00:00"; "01:00"; "02:00"; "03:00"; "04:00"; "05:00"; "06:00";
    "07:00"; "08:00"; "09:00";
    "10:00"; "11:00"; "12:00"; "13:00"; "14:00"; "15:00"; "16:00";
    "17:00"; "18:00"; "19:00";
    "20:00"; "21:00"; "22:00"; "23:00" ].

Definition digits : list ascii :=
  [ "0"; "1"; "2"; "3"; "4"; "5"; "6"; "7"; "8"; "9" ]%char.

(** The operating hours of a sport document, with the defaults of
    [Sport]. *)
Definition doc_open (s : SportDoc) : Z := get (doc_open_hour s) 8.
Definition doc_close (s : SportDoc) : Z := get (doc_close_hour s) 22.

(** [create_booking] accepts a schema-valid request only when its hours
    lie within the operating hours of its sport. *)
Definition operating_hours_enforced : Prop :=
  forall (d : Database) (payload : Booking) (sport_doc : SportDoc)
         (start_h end_h total : Z) (db' : option Database),
    Booking_valid payload = true ->
    find_one_sport (sport payload) (sport_coll d) = Some sport_doc ->
    parse_hour (start_time payload) = Some start_h ->
    parse_hour (end_time payload) = Some end_h ->
    create_booking (Some d) payload = (Ok total, db') ->
    doc_open sport_doc <= start_h /\ end_h <= doc_close sport_doc.

(** [create_booking] accepts a schema-valid request only when its court
    is one of the courts of its sport. *)
Definition court_count_enforced : Prop :=
  forall (d : Database) (payload : Booking) (sport_doc : SportDoc)
         (n total : Z) (db' : option Database),
    Booking_valid payload = true ->
    find_one_sport (sport payload) (sport_coll d) = Some sport_doc ->
    doc_courts sport_doc = Some n ->
    create_booking (Some d) payload = (Ok total, db') ->
    1 <= court payload <= n.

(** A sport document with other operating hours. *)
Definition with_hours (h : SportDoc -> option Z * option Z) (s : SportDoc)
  : SportDoc :=
  mkSportDoc (doc_key s) (doc_name s) (doc_courts s)
    (doc_price_per_hour s) (fst (h s)) (snd (h s)).

(** A sport document with another court count. *)
Definition with_courts (c : SportDoc -> option Z) (s : SportDoc)
  : SportDoc :=
  mkSportDoc (doc_key s) (doc_name s) (c s) (doc_price_per_hour s)
    (doc_open_hour s) (doc_close_hour s).

(** The order of the sort on documents. *)
Definition doc_le (a b : BookingDoc) : Prop := sort_key_leb a b = true.

(** The documents whose [sport] and [date] equal the values given, a
    value that is not given letting every document through. *)
Definition given_filter (sport_q date_q : option string) (b : BookingDoc)
  : bool :=
  match sport_q with
  | Some s => (sport (fields b) =? s)%string
  | None => true
  end
  && match date_q with
     | Some s => (date (fields b) =? s)%string
     | None => true
     end.

(** [list_bookings] returns the stored bookings whose [sport] and [date]
    equal the values given, in the order of [date] and [start_time]. *)
Definition list_bookings_filters_given_values : Prop :=
  forall (d : Database) (sport_q date_q : option string),
  exists r,
    list_bookings (Some d) sport_q date_q = Ok r
    /\ Permutation r
         (map to_item
            (filter (given_filter sport_q date_q) (booking_coll d)))
    /\ StronglySorted date_start_le r.

(** A filter value that is the empty string counts as not given. *)
Definition filter_value (q : option string) : option string :=
  match q with
  | Some EmptyString => None
  | _ => q
  end.

(** Both times of a booking are zero-padded. *)
Definition padded_booking (b : Booking) : bool :=
  padded_time (start_time b) && padded_time (end_time b).

(** A ledger of zero-padded bookings no two of which overlap. *)
Definition ledger_disjoint (l : list BookingDoc) : Prop :=
  Forall (fun b => padded_booking (fields b) = true) l
  /\ double_booked l = false.

(** The catalog after seeding, with an empty ledger. *)
Definition seeded : Database := mkDatabase defaults [].

(** A request of customer ["Ann"] on 2024-06-01. *)
Definition request (sp : string) (c : Z) (st en : string) : Booking :=
  mkBooking "Ann" "0800" sp c "2024-06-01" st en "confirmed" None None.

(* ================================================================= *)
(** ** [main.py]: the diagnostic endpoint *)

(** The handle [db] as [test_database] uses it: its [name] attribute,
    when it has one, and the outcome of [list_collection_names()],
    [inl msg] standing for an exception of message [msg]. *)
Record Handle : Type := mkHandle {
  handle_name : option string;
  list_collection_names : string + list string
}.

(** The outcome of [from database import db] inside [test_database]: an
    exception of message [msg], or the value of [db]. *)
Inductive Imported : Type :=
| ImportFails (msg : string)
| ImportGives (db : option Handle).

(** [os.getenv] on the two variables [test_database] reads. *)
Record Environ : Type := mkEnviron {
  DATABASE_URL : option string;
  DATABASE_NAME : option string
}.

(** The dictionary [response] of [test_database]. *)
Record TestResponse : Type := mkTestResponse {
  backend : string;
  database : string;
  database_url : option string;
  database_name : option string;
  connection_status : string;
  collections : list string
}.

Definition set_database (v : string) (r : TestResponse) : TestResponse :=
  mkTestResponse (backend r) v (database_url r) (database_name r)
    (connection_status r) (collections r).

(** [str(e)[:50]], the message [e] being ASCII text. *)
Definition message50 (e : string) : string := substring 0 50 e.

(** [GET /test]. *)
Definition test_database (imp : Imported) (env : Environ) : TestResponse :=
  let response :=
    mkTestResponse "✅ Running" "❌ Not Available" None None
      "Not Connected" [] in
  let response :=
    match imp with
    | ImportGives (Some db) =>
        let response :=
          mkTestResponse (backend response) "✅ Available"
            (Some "✅ Configured")
            (Some (get (handle_name db) "✅ Connected"))
            "Connected" (collections response) in
        match list_collection_names db with
        | inr names =>
            let response :=
              mkTestResponse (backend response) (database response)
                (database_url response) (database_name response)
                (connection_status response) (firstn 10 names) in
            set_database "✅ Connected & Working" response
        | inl e =>
            set_database ("⚠️  Connected but Error: " ++ message50 e)
              response
        end
    | ImportGives None =>
        set_database "⚠️  Available but not initialized" response
    | ImportFails e => set_database ("❌ Error: " ++ message50 e) response
    end in
  mkTestResponse (backend response) (database response)
    (Some (if Py.truthy (DATABASE_URL env) then "✅ Set" else "❌ Not Set"))
    (Some (if Py.truthy (DATABASE_NAME env) then "✅ Set" else "❌ Not Set"))
    (connection_status response) (collections response).

(* ================================================================= *)
(** ** Sequences of requests to the three handlers *)

Inductive Request : Type :=
| ListSports
| CreateBooking (payload : Booking)
| ListBookings (sport_q date_q : option string).

(** The store after one request. *)
Definition serve (db : option Database) (r : Request) : option Database :=
  match r with
  | ListSports => snd (list_sports db)
  | CreateBooking payload => snd (create_booking db payload)
  | ListBookings _ _ => db
  end.

Fixpoint serve_all (db : option Database) (rs : list Request)
  : option Database :=
  match rs with
  | [] => db
  | r :: rest => serve_all (serve db r) rest
  end.

(** The stored booking [b] names a sport of [catalog], its range is
    valid, and its total is the duration times that sport's price. *)
Definition priced (catalog : list SportDoc) (b : BookingDoc) : Prop :=
  exists sport_doc start_h end_h,
    find_one_sport (sport (fields b)) catalog = Some sport_doc
    /\ parse_range (fields b) = Some (start_h, end_h)
    /\ total_price (fields b)
       = Some ((end_h - start_h) * get (doc_price_per_hour sport_doc) 0).

(** The stores the handlers reach from the empty one: nothing stored
    yet, or the default catalog with priced bookings. *)
Definition seeded_or_empty (d : Database) : Prop :=
  (sport_coll d = [] /\ booking_coll d = [])
  \/ (sport_coll d = defaults /\ Forall (priced defaults) (booking_coll d)).

(** A string without the character [sep]. *)
Fixpoint free_of (sep : ascii) (s : string) : bool :=
  match s with
  | EmptyString => true
  | String c r => negb (Ascii.eqb c sep) && free_of sep r
  end.

(* ================================================================= *)
(** ** Basic facts *)

Lemma ltb_str_lt (a b : string) : String.ltb a b = true <-> str_lt a b.
Proof.
  unfold String.ltb, str_lt.
  destruct (String.compare a b); split; congruence.
Qed.

Lemma leb_str_le (a b : string) : String.leb a b = true <-> str_le a b.
Proof.
  unfold String.leb, str_le.
  destruct (String.compare a b); split; congruence.
Qed.

Lemma same_slotb_iff (a b : Booking) :
  same_slotb a b = true <-> same_slot a b.
Proof.
  unfold same_slotb, same_slot.
  rewrite !andb_true_iff, !String.eqb_eq, Z.eqb_eq. tauto.
Qed.

Lemma find_is_some {A : Type} (f : A -> bool) (l : list A) :
  find f l <> None <-> exists x, In x l /\ f x = true.
Proof.
  split.
  - destruct (find f l) as [x|] eqn:E; [intros _ | congruence].
    exists x. now apply find_some in E.
  - intros [x [Hin Hf]] E.
    pose proof (find_none f l E x Hin). congruence.
Qed.

Lemma overlap_filter_iff (payload : Booking) (b : BookingDoc) :
  overlap_filter payload b = true <->
  same_slot (fields b) payload
  /\ str_lt (start_time payload) (end_time (fields b))
  /\ str_lt (start_time (fields b)) (end_time payload).
Proof.
  unfold overlap_filter, same_slot.
  rewrite !andb_true_iff, !String.eqb_eq, Z.eqb_eq, !ltb_str_lt. tauto.
Qed.

(* ================================================================= *)
(** ** The availability check *)

(** C2. The availability query of [create_booking] finds a conflict if
    and only if some stored booking with the request's sport, court and
    date satisfies [requested_start < existing_end] and
    [requested_end > existing_start] in the order on time strings. On one
    court and date, 08:00-10:00 against 09:00-11:00 is a conflict, and
    08:00-10:00 against 10:00-12:00 is none, whichever of the two is the
    stored one. *)
Theorem availability_check_half_open :
  (forall (payload : Booking) (coll : list BookingDoc),
      find_one_conflict payload coll <> None <->
      exists b, In b coll
                /\ same_slot (fields b) payload
                /\ str_lt (start_time payload) (end_time (fields b))
                /\ str_lt (start_time (fields b)) (end_time payload))
  /\ find_one_conflict (request "futsal" 1 "08:00" "10:00")
       [mkBookingDoc 0%N (request "futsal" 1 "09:00" "11:00")] <> None
  /\ find_one_conflict (request "futsal" 1 "09:00" "11:00")
       [mkBookingDoc 0%N (request "futsal" 1 "08:00" "10:00")] <> None
  /\ find_one_conflict (request "futsal" 1 "08:00" "10:00")
       [mkBookingDoc 0%N (request "futsal" 1 "10:00" "12:00")] = None
  /\ find_one_conflict (request "futsal" 1 "10:00" "12:00")
       [mkBookingDoc 0%N (request "futsal" 1 "08:00" "10:00")] = None.
Proof.
  split.
  - intros payload coll. unfold find_one_conflict.
    rewrite find_is_some.
    split; intros [b [Hin H]]; exists b; split; trivial;
      now apply overlap_filter_iff.
  - repeat split; try reflexivity; discriminate.
Qed.

(* ================================================================= *)
(** ** The pipeline of [create_booking] *)

(** C3. [create_booking] checks that the sport exists, then that the
    time range is valid, then that the slot is free, and fails with
    [NotFound], [InvalidRange] or [Conflict] at the first check that
    fails; an unknown sport with a malformed time range gives [NotFound].
    When the three checks pass the booking is stored and the computed
    total price returned. *)
Theorem create_booking_check_order :
  (forall (d : Database) (payload : Booking),
      find_one_sport (sport payload) (sport_coll d) = None ->
      create_booking (Some d) payload = (Err NotFound, Some d))
  /\ (forall (d : Database) (payload : Booking) (sport_doc : SportDoc),
         find_one_sport (sport payload) (sport_coll d) = Some sport_doc ->
         parse_range payload = None ->
         create_booking (Some d) payload = (Err InvalidRange, Some d))
  /\ (forall (d : Database) (payload : Booking) (sport_doc : SportDoc)
             (start_h end_h : Z),
         find_one_sport (sport payload) (sport_coll d) = Some sport_doc ->
         parse_range payload = Some (start_h, end_h) ->
         find_one_conflict payload (booking_coll d) <> None ->
         create_booking (Some d) payload = (Err Conflict, Some d))
  /\ (forall (d : Database) (payload : Booking) (sport_doc : SportDoc)
             (start_h end_h : Z),
         find_one_sport (sport payload) (sport_coll d) = Some sport_doc ->
         parse_range payload = Some (start_h, end_h) ->
         find_one_conflict payload (booking_coll d) = None ->
         let total :=
           (end_h - start_h) * get (doc_price_per_hour sport_doc) 0 in
         create_booking (Some d) payload
         = (Ok total, Some (stored d payload total)))
  /\ parse_range (request "golf" 1 "ab:00" "09:00") = None
  /\ create_booking (Some seeded) (request "golf" 1 "ab:00" "09:00")
     = (Err NotFound, Some seeded).
Proof.
  repeat split.
  - intros d payload H. unfold create_booking. now rewrite H.
  - intros d payload sd H1 H2. unfold create_booking. now rewrite H1, H2.
  - intros d payload sd s e H1 H2 H3. unfold create_booking.
    rewrite H1, H2.
    destruct (find_one_conflict payload (booking_coll d)); congruence.
  - intros d payload sd s e H1 H2 H3. unfold create_booking.
    now rewrite H1, H2, H3.
Qed.

Lemma create_booking_check_order_witness :
  create_booking (Some seeded) (request "futsal" 1 "11:00" "09:00")
  = (Err InvalidRange, Some seeded)
  /\ create_booking (Some seeded) (request "futsal" 1 "09:00" "11:00")
     = (Ok 300000,
        Some (stored seeded (request "futsal" 1 "09:00" "11:00") 300000)).
Proof.
  destruct create_booking_check_order as [_ [H2 [_ [H4 _]]]].
  split.
  - eapply H2; reflexivity.
  - exact (H4 seeded (request "futsal" 1 "09:00" "11:00")
             (mkSportDoc (Some "futsal") (Some "Futsal") (Some 3)
                (Some 150000) (Some 8) (Some 23))
             9 11 eq_refl eq_refl eq_refl).
Defined.

(** C6. A failed [create_booking] leaves the store as it found it: no
    booking is stored with [NotFound], [InvalidRange] or [Conflict] (nor
    when the database is not configured). *)
Theorem create_booking_failure_no_write
  (db db' : option Database) (payload : Booking) (e : Error) :
  create_booking db payload = (Err e, db') -> db' = db.
Proof.
  unfold create_booking.
  destruct db as [d|]; [|congruence].
  destruct (find_one_sport (sport payload) (sport_coll d)) as [sd|];
    [|congruence].
  destruct (parse_range payload) as [[start_h end_h]|]; [|congruence].
  destruct (find_one_conflict payload (booking_coll d)); congruence.
Qed.

Lemma create_booking_failure_no_write_witness :
  let db := Some (stored seeded (request "futsal" 1 "09:00" "11:00") 300000) in
  create_booking db (request "futsal" 1 "10:00" "12:00") = (Err Conflict, db)
  /\ db = db.
Proof.
  intros db.
  assert (H : create_booking db (request "futsal" 1 "10:00" "12:00")
              = (Err Conflict, db)) by reflexivity.
  split; [exact H|].
  exact (create_booking_failure_no_write db db _ Conflict H).
Defined.

(* ================================================================= *)
(** ** Slot validation and pricing *)

(** C4. With the sport found, [create_booking] fails with [InvalidRange]
    exactly when one of the two hours does not parse or
    [end_h <= start_h]; otherwise the duration [end_h - start_h] is
    positive and the total is the duration times the sport's
    [price_per_hour]. 09:00 to 11:00 lasts 2 hours, 11:00 to 09:00 and
    09:00 to 09:00 are invalid, and 3 hours at 150000 cost 450000. *)
Theorem slot_validation_and_price :
  (forall payload : Booking,
      parse_range payload = None <->
      parse_hour (start_time payload) = None
      \/ parse_hour (end_time payload) = None
      \/ exists start_h end_h,
          parse_hour (start_time payload) = Some start_h
          /\ parse_hour (end_time payload) = Some end_h
          /\ end_h <= start_h)
  /\ (forall (payload : Booking) (start_h end_h : Z),
         parse_range payload = Some (start_h, end_h) ->
         parse_hour (start_time payload) = Some start_h
         /\ parse_hour (end_time payload) = Some end_h
         /\ 0 < end_h - start_h)
  /\ (forall (d : Database) (payload : Booking) (sport_doc : SportDoc),
         find_one_sport (sport payload) (sport_coll d) = Some sport_doc ->
         (fst (create_booking (Some d) payload) = Err InvalidRange <->
          parse_range payload = None)
         /\ (forall total,
                fst (create_booking (Some d) payload) = Ok total ->
                exists start_h end_h,
                  parse_range payload = Some (start_h, end_h)
                  /\ total
                     = (end_h - start_h)
                       * get (doc_price_per_hour sport_doc) 0))
  /\ parse_range (request "futsal" 1 "09:00" "11:00") = Some (9, 11)
  /\ fst (create_booking (Some seeded) (request "futsal" 1 "11:00" "09:00"))
     = Err InvalidRange
  /\ fst (create_booking (Some seeded) (request "futsal" 1 "09:00" "09:00"))
     = Err InvalidRange
  /\ fst (create_booking (Some seeded) (request "futsal" 1 "09:00" "12:00"))
     = Ok 450000.
Proof.
  split; [|split; [|split]].
  - intros payload. unfold parse_range.
    destruct (parse_hour (start_time payload)) as [s|];
      destruct (parse_hour (end_time payload)) as [e|].
    + destruct (Z.leb_spec e s).
      * split; [intros _ | trivial]. right; right. now exists s, e.
      * split; [discriminate|].
        intros [H'|[H'|[s' [e' [H1 [H2 H3]]]]]]; try discriminate.
        inversion H1; inversion H2; subst. lia.
    + split; auto.
    + split; auto.
    + split; auto.
  - intros payload s e. unfold parse_range.
    destruct (parse_hour (start_time payload)) as [s'|]; [|discriminate].
    destruct (parse_hour (end_time payload)) as [e'|]; [|discriminate].
    destruct (Z.leb_spec e' s'); [discriminate|].
    intros H'; inversion H'; subst. repeat split; trivial. lia.
  - intros d payload sd H. unfold create_booking. rewrite H.
    destruct (parse_range payload) as [[s e]|]; simpl.
    + destruct (find_one_conflict payload (booking_coll d)); simpl.
      * split; [split; discriminate | discriminate].
      * split; [split; discriminate |].
        intros total Ht. inversion Ht. now exists s, e.
    + split; [tauto | discriminate].
  - repeat split.
Qed.

Lemma slot_validation_and_price_witness :
  parse_hour "09:00" = Some 9 /\ parse_hour "11:00" = Some 11 /\ 0 < 11 - 9.
Proof.
  destruct slot_validation_and_price as [_ [H _]].
  exact (H (request "futsal" 1 "09:00" "11:00") 9 11 eq_refl).
Defined.

(* ================================================================= *)
(** ** Seeding of the catalog *)

(** C7. On an empty catalog [list_sports] stores the three defaults
    (futsal, minisoccer and badminton with their courts, prices and
    hours) and returns them; called again on the catalog it has left, it
    stores nothing and returns the same three sports. *)
Theorem list_sports_seeds_once (ledger : list BookingDoc) :
  let db := Some (mkDatabase [] ledger) in
  let db1 := Some (mkDatabase defaults ledger) in
  list_sports db = (Ok default_sports, db1)
  /\ list_sports db1 = (Ok default_sports, db1)
  /\ List.length default_sports = 3%nat.
Proof.
  repeat split.
Qed.

(* ================================================================= *)
(** ** The time strings of the schema *)

Lemma is_digit_digits (c : ascii) : Py.is_digit c = true -> In c digits.
Proof.
  destruct c as [[] [] [] [] [] [] [] []]; vm_compute; intros H;
    try discriminate H; tauto.
Qed.

Ltac ascii_subst :=
  repeat match goal with
         | H : Ascii.eqb _ _ = true |- _ => apply Ascii.eqb_eq in H; subst
         end.

Ltac pick_member := simpl; repeat (try (left; reflexivity); right).

Lemma time_pattern_schema_times (s : string) :
  time_pattern s = true -> In s schema_times.
Proof.
  destruct s as [|a [|b [|c [|d [|e [|f r]]]]]]; simpl; try discriminate.
  - rewrite !andb_true_iff. intros [[[Ha Hb] Hc] Hd]. ascii_subst.
    apply is_digit_digits in Ha. simpl in Ha.
    repeat (destruct Ha as [<-|Ha]; [pick_member|]). contradiction.
  - rewrite !andb_true_iff, !orb_true_iff, !andb_true_iff, !orb_true_iff.
    intros [[[[[[Ha|Ha] Hb]|[Ha Hb]] Hc] Hd] He]; ascii_subst.
    + apply is_digit_digits in Hb. simpl in Hb.
      repeat (destruct Hb as [<-|Hb]; [pick_member|]). contradiction.
    + apply is_digit_digits in Hb. simpl in Hb.
      repeat (destruct Hb as [<-|Hb]; [pick_member|]). contradiction.
    + destruct Hb as [[[Hb|Hb]|Hb]|Hb]; ascii_subst; pick_member.
Qed.

(** A decidable property that holds of each of [schema_times] holds of
    every string matching the pattern. *)
Lemma schema_times_all (P : string -> bool) :
  forallb P schema_times = true ->
  forall s, time_pattern s = true -> P s = true.
Proof.
  intros H s Hs. rewrite forallb_forall in H.
  apply H. now apply time_pattern_schema_times.
Qed.

Lemma schema_times_all2 (P : string -> string -> bool) :
  forallb (fun a => forallb (P a) schema_times) schema_times = true ->
  forall a b, time_pattern a = true -> time_pattern b = true ->
              P a b = true.
Proof.
  intros H a b Ha Hb. rewrite forallb_forall in H.
  specialize (H a (time_pattern_schema_times a Ha)).
  rewrite forallb_forall in H.
  apply H. now apply time_pattern_schema_times.
Qed.

Lemma time_pattern_parse_hour (s : string) :
  time_pattern s = true ->
  exists h, parse_hour s = Some h /\ 0 <= h <= 23.
Proof.
  intros Hs.
  pose proof (schema_times_all
                (fun s => match parse_hour s with
                          | Some h => (0 <=? h) && (h <=? 23)
                          | None => false
                          end) eq_refl s Hs) as H.
  simpl in H. destruct (parse_hour s) as [h|]; [|discriminate].
  exists h. split; trivial.
  apply andb_true_iff in H. lia.
Qed.

Lemma Booking_valid_hours (payload : Booking) :
  Booking_valid payload = true ->
  exists start_h end_h,
    parse_hour (start_time payload) = Some start_h
    /\ parse_hour (end_time payload) = Some end_h
    /\ 0 <= start_h <= 23 /\ 0 <= end_h <= 23
    /\ (parse_range payload = None <-> end_h <= start_h).
Proof.
  unfold Booking_valid. rewrite !andb_true_iff.
  intros [[[_ Hs] He] _].
  destruct (time_pattern_parse_hour _ Hs) as [s [Es Bs]].
  destruct (time_pattern_parse_hour _ He) as [e [Ee Be]].
  exists s, e. repeat split; try tauto; try lia.
  - unfold parse_range. rewrite Es, Ee.
    destruct (Z.leb_spec e s); [trivial | discriminate].
  - unfold parse_range. rewrite Es, Ee.
    destruct (Z.leb_spec e s); [trivial | lia].
Qed.

(** C10. When [start_time] and [end_time] match the schema's pattern,
    both hour conversions of [create_booking] succeed, with hours between
    0 and 23, so the handler of the [try] block is entered only through
    the [ValueError] raised for [end_h <= start_h]: with the sport found,
    the response is [InvalidRange] exactly when [end_h <= start_h]. *)
Theorem schema_times_always_parse (payload : Booking) :
  Booking_valid payload = true ->
  exists start_h end_h,
    parse_hour (start_time payload) = Some start_h
    /\ parse_hour (end_time payload) = Some end_h
    /\ 0 <= start_h <= 23 /\ 0 <= end_h <= 23
    /\ (parse_range payload = None <-> end_h <= start_h)
    /\ forall (d : Database) (sport_doc : SportDoc),
        find_one_sport (sport payload) (sport_coll d) = Some sport_doc ->
        (fst (create_booking (Some d) payload) = Err InvalidRange <->
         end_h <= start_h).
Proof.
  intros Hv.
  destruct (Booking_valid_hours payload Hv) as [s [e [Es [Ee [Bs [Be R]]]]]].
  exists s, e.
  split; [exact Es|]. split; [exact Ee|].
  split; [exact Bs|]. split; [exact Be|]. split; [exact R|].
  intros d sport_doc Hsp. rewrite <- R.
  unfold create_booking. rewrite Hsp.
  destruct (parse_range payload) as [[s' e']|]; simpl.
  - destruct (find_one_conflict payload (booking_coll d));
      split; discriminate.
  - tauto.
Qed.

Lemma schema_times_always_parse_witness :
  exists start_h end_h,
    parse_hour "9:00" = Some start_h
    /\ parse_hour "23:00" = Some end_h
    /\ 0 <= start_h <= 23 /\ 0 <= end_h <= 23
    /\ (parse_range (request "futsal" 1 "9:00" "23:00") = None <->
        end_h <= start_h)
    /\ forall (d : Database) (sport_doc : SportDoc),
        find_one_sport "futsal" (sport_coll d) = Some sport_doc ->
        (fst (create_booking (Some d) (request "futsal" 1 "9:00" "23:00"))
         = Err InvalidRange <->
         end_h <= start_h).
Proof.
  exact (schema_times_always_parse (request "futsal" 1 "9:00" "23:00")
           eq_refl).
Defined.

(* ================================================================= *)
(** ** What [create_booking] does not look at *)

Lemma find_map {A : Type} (f : A -> bool) (g : A -> A) (l : list A) :
  (forall x, f (g x) = f x) ->
  find f (map g l) = option_map g (find f l).
Proof.
  intros Hfg. induction l as [|x l IH]; simpl; trivial.
  rewrite Hfg. now destruct (f x).
Qed.

(** The response of [create_booking] when the stored sport documents are
    rewritten by [g], a rewriting that keeps keys and prices. *)
Lemma create_booking_sport_fields
  (g : SportDoc -> SportDoc) (sports : list SportDoc)
  (ledger : list BookingDoc) (payload : Booking) :
  (forall s, doc_key (g s) = doc_key s) ->
  (forall s, doc_price_per_hour (g s) = doc_price_per_hour s) ->
  fst (create_booking (Some (mkDatabase (map g sports) ledger)) payload)
  = fst (create_booking (Some (mkDatabase sports ledger)) payload).
Proof.
  intros Hk Hp. unfold create_booking, find_one_sport. simpl.
  rewrite find_map by (intros x; now rewrite Hk).
  destruct (find _ sports) as [sd|]; simpl; trivial.
  destruct (parse_range payload) as [[s e]|]; trivial.
  rewrite Hp. now destruct (find_one_conflict payload ledger).
Qed.

Lemma create_booking_accepted
  (d : Database) (payload : Booking) (total : Z) (db' : option Database) :
  create_booking (Some d) payload = (Ok total, db') ->
  exists sport_doc start_h end_h,
    find_one_sport (sport payload) (sport_coll d) = Some sport_doc
    /\ parse_range payload = Some (start_h, end_h)
    /\ find_one_conflict payload (booking_coll d) = None
    /\ total = (end_h - start_h) * get (doc_price_per_hour sport_doc) 0
    /\ db' = Some (stored d payload total).
Proof.
  unfold create_booking.
  destruct (find_one_sport (sport payload) (sport_coll d)) as [sd|];
    [|discriminate].
  destruct (parse_range payload) as [[s e]|]; [|discriminate].
  destruct (find_one_conflict payload (booking_coll d)); [discriminate|].
  intros H. inversion H. now exists sd, s, e.
Qed.

(** C5, refuted as stated: on the seeded catalog the schema-valid request
    for futsal from 02:00 to 04:00 is accepted, though futsal opens
    at 8. *)
Lemma operating_hours_not_enforced : ~ operating_hours_enforced.
Proof.
  intros H.
  specialize (H seeded (request "futsal" 1 "02:00" "04:00")
                (mkSportDoc (Some "futsal") (Some "Futsal") (Some 3)
                   (Some 150000) (Some 8) (Some 23))
                2 4 300000 _ eq_refl eq_refl eq_refl eq_refl eq_refl).
  vm_compute in H. destruct H as [H _]. now apply H.
Qed.

(** C5, amended. For every accepted booking whose fields satisfy the
    schema the hours satisfy [0 <= start_h < end_h <= 23];
    [create_booking] does not compare them with [open_hour] and
    [close_hour]: its response is the same whatever operating hours the
    sport documents carry. *)
Theorem accepted_hours_within_day :
  (forall (d : Database) (payload : Booking) (total : Z)
          (db' : option Database),
      Booking_valid payload = true ->
      create_booking (Some d) payload = (Ok total, db') ->
      exists start_h end_h,
        parse_hour (start_time payload) = Some start_h
        /\ parse_hour (end_time payload) = Some end_h
        /\ 0 <= start_h /\ start_h < end_h /\ end_h <= 23)
  /\ (forall (h : SportDoc -> option Z * option Z)
             (sports : list SportDoc) (ledger : list BookingDoc)
             (payload : Booking),
         fst (create_booking
                (Some (mkDatabase (map (with_hours h) sports) ledger))
                payload)
         = fst (create_booking (Some (mkDatabase sports ledger)) payload)).
Proof.
  split.
  - intros d payload total db' Hv Hc.
    destruct (Booking_valid_hours payload Hv)
      as [s [e [Es [Ee [Bs [Be R]]]]]].
    destruct (create_booking_accepted _ _ _ _ Hc)
      as [sd [s' [e' [_ [Hr _]]]]].
    exists s, e. repeat split; trivial; try lia.
    destruct (Z.lt_ge_cases s e) as [Hlt|Hge]; trivial.
    apply R in Hge. congruence.
  - intros h sports ledger payload.
    now apply create_booking_sport_fields.
Qed.

Lemma accepted_hours_within_day_witness :
  exists start_h end_h,
    parse_hour "02:00" = Some start_h
    /\ parse_hour "04:00" = Some end_h
    /\ 0 <= start_h /\ start_h < end_h /\ end_h <= 23.
Proof.
  destruct accepted_hours_within_day as [H _].
  exact (H seeded (request "futsal" 1 "02:00" "04:00") 300000 _
           eq_refl eq_refl).
Defined.

(** C8, refuted as stated: on the seeded catalog the schema-valid request
    for court 99 of futsal is accepted, though futsal has 3 courts. *)
Lemma court_count_not_enforced : ~ court_count_enforced.
Proof.
  intros H.
  specialize (H seeded (request "futsal" 99 "09:00" "11:00")
                (mkSportDoc (Some "futsal") (Some "Futsal") (Some 3)
                   (Some 150000) (Some 8) (Some 23))
                3 300000 _ eq_refl eq_refl eq_refl eq_refl).
  simpl in H. lia.
Qed.

(** C8, amended. For every accepted booking whose fields satisfy the
    schema the stored court number is at least 1; [create_booking] does
    not compare it with the sport's court count: its response is the same
    whatever court counts the sport documents carry. *)
Theorem accepted_court_at_least_one :
  (forall (d : Database) (payload : Booking) (total : Z)
          (db' : option Database),
      Booking_valid payload = true ->
      create_booking (Some d) payload = (Ok total, db') ->
      exists (d' : Database) (b : BookingDoc),
        db' = Some d'
        /\ booking_coll d' = (booking_coll d ++ [b])%list
        /\ court (fields b) = court payload
        /\ 1 <= court (fields b))
  /\ (forall (c : SportDoc -> option Z)
             (sports : list SportDoc) (ledger : list BookingDoc)
             (payload : Booking),
         fst (create_booking
                (Some (mkDatabase (map (with_courts c) sports) ledger))
                payload)
         = fst (create_booking (Some (mkDatabase sports ledger)) payload)).
Proof.
  split.
  - intros d payload total db' Hv Hc.
    destruct (create_booking_accepted _ _ _ _ Hc)
      as [sd [s [e [_ [_ [_ [_ ->]]]]]]].
    eexists. eexists. split; [reflexivity|].
    split; [reflexivity|]. simpl. split; trivial.
    unfold Booking_valid in Hv. rewrite !andb_true_iff in Hv.
    destruct Hv as [[[Hv _] _] _]. lia.
  - intros c sports ledger payload.
    now apply create_booking_sport_fields.
Qed.

Lemma accepted_court_at_least_one_witness :
  exists (d' : Database) (b : BookingDoc),
    Some (stored seeded (request "futsal" 99 "09:00" "11:00") 300000)
    = Some d'
    /\ booking_coll d' = (booking_coll seeded ++ [b])%list
    /\ court (fields b) = 99
    /\ 1 <= court (fields b).
Proof.
  destruct accepted_court_at_least_one as [H _].
  exact (H seeded (request "futsal" 99 "09:00" "11:00") 300000 _
           eq_refl eq_refl).
Defined.

(* ================================================================= *)
(** ** The order on strings and the sort of [list_bookings] *)

Lemma compare_refl (a : string) : String.compare a a = Eq.
Proof.
  induction a as [|x a IH]; simpl; trivial.
  unfold Ascii.compare. now rewrite N.compare_refl.
Qed.

Lemma compare_lt_trans (a b c : string) :
  str_lt a b -> str_lt b c -> str_lt a c.
Proof.
  unfold str_lt. revert b c.
  induction a as [|x a IH]; intros [|y b] [|z c]; simpl; try congruence.
  unfold Ascii.compare.
  destruct (N.compare_spec (N_of_ascii x) (N_of_ascii y)) as [Exy|Lxy|Gxy];
    try discriminate;
    destruct (N.compare_spec (N_of_ascii y) (N_of_ascii z))
      as [Eyz|Lyz|Gyz];
    try discriminate; intros H1 H2.
  - rewrite Exy, Eyz, N.compare_refl. now apply IH with b.
  - rewrite Exy. now apply N.compare_lt_iff in Lyz as ->.
  - rewrite <- Eyz. now apply N.compare_lt_iff in Lxy as ->.
  - assert (L : (N_of_ascii x < N_of_ascii z)%N) by lia.
    now apply N.compare_lt_iff in L as ->.
Qed.

Lemma str_le_cases (a b : string) : str_le a b <-> str_lt a b \/ a = b.
Proof.
  unfold str_le, str_lt. split.
  - destruct (String.compare a b) eqn:E; try congruence; auto.
    right. now apply String.compare_eq_iff.
  - intros [H| ->]; [congruence | rewrite compare_refl; discriminate].
Qed.

Lemma str_le_trans (a b c : string) : str_le a b -> str_le b c -> str_le a c.
Proof.
  rewrite !str_le_cases. intros [H1| ->] [H2| ->]; auto.
  left. now apply compare_lt_trans with b.
Qed.

Lemma doc_le_iff (a b : BookingDoc) :
  doc_le a b <-> date_start_le (to_item a) (to_item b).
Proof.
  unfold doc_le, sort_key_leb, date_start_le, str_lt. simpl.
  destruct (String.compare (date (fields a)) (date (fields b))) eqn:E.
  - apply String.compare_eq_iff in E. rewrite leb_str_le. split.
    + auto.
    + intros [H|[_ H]]; [discriminate | trivial].
  - split; auto.
  - split; [discriminate|].
    intros [H|[H _]]; [discriminate|].
    rewrite H, compare_refl in E. discriminate.
Qed.

Lemma doc_le_trans (a b c : BookingDoc) :
  doc_le a b -> doc_le b c -> doc_le a c.
Proof.
  rewrite !doc_le_iff. unfold date_start_le.
  intros [H1|[H1 H1']] [H2|[H2 H2']].
  - left. eapply compare_lt_trans; eassumption.
  - left. now rewrite <- H2.
  - left. now rewrite H1.
  - right. split; [congruence|]. eapply str_le_trans; eassumption.
Qed.

Lemma doc_le_total (a b : BookingDoc) :
  sort_key_leb a b = false -> doc_le b a.
Proof.
  unfold doc_le, sort_key_leb, String.leb.
  rewrite (String.compare_antisym (date (fields a)) (date (fields b))).
  rewrite (String.compare_antisym (start_time (fields a))
             (start_time (fields b))).
  destruct (String.compare (date (fields b)) (date (fields a)));
    destruct (String.compare (start_time (fields b)) (start_time (fields a)));
    simpl; congruence.
Qed.

Lemma sort_insert_perm (b : BookingDoc) (l : list BookingDoc) :
  Permutation (sort_insert b l) (b :: l).
Proof.
  induction l as [|x l IH]; simpl; trivial.
  destruct (sort_key_leb b x); trivial.
  rewrite IH. apply perm_swap.
Qed.

Lemma sort_perm (l : list BookingDoc) :
  Permutation (sort_by_date_start l) l.
Proof.
  induction l as [|b l IH]; simpl; trivial.
  rewrite sort_insert_perm. now constructor.
Qed.

Lemma sort_insert_sorted (b : BookingDoc) (l : list BookingDoc) :
  StronglySorted doc_le l -> StronglySorted doc_le (sort_insert b l).
Proof.
  induction 1 as [|x l Hs IH Hx]; simpl.
  - repeat constructor.
  - destruct (sort_key_leb b x) eqn:E.
    + constructor; [now constructor|].
      constructor; trivial.
      eapply Forall_impl; [|exact Hx].
      intros y Hy. now apply doc_le_trans with x.
    + constructor; trivial.
      rewrite Forall_forall. intros y Hy.
      apply (Permutation_in _ (sort_insert_perm b l)) in Hy.
      destruct Hy as [<-|Hy].
      * now apply doc_le_total.
      * rewrite Forall_forall in Hx. now apply Hx.
Qed.

Lemma sort_sorted (l : list BookingDoc) :
  StronglySorted doc_le (sort_by_date_start l).
Proof.
  induction l as [|b l IH]; simpl.
  - constructor.
  - now apply sort_insert_sorted.
Qed.

Lemma to_item_sorted (l : list BookingDoc) :
  StronglySorted doc_le l -> StronglySorted date_start_le (map to_item l).
Proof.
  induction 1 as [|x l Hs IH Hx]; simpl; constructor; trivial.
  rewrite Forall_map. eapply Forall_impl; [|exact Hx].
  intros y. apply doc_le_iff.
Qed.

Lemma query_filter_filter_value (sport_q date_q : option string)
  (b : BookingDoc) :
  query_filter sport_q date_q b
  = given_filter (filter_value sport_q) (filter_value date_q) b.
Proof.
  unfold query_filter, given_filter.
  destruct sport_q as [[|c s]|], date_q as [[|c' s']|]; reflexivity.
Qed.

(* ================================================================= *)
(** ** [list_bookings] *)

(** C9, refuted as stated: with one futsal booking stored, the sport
    filter [""] returns that booking, whose sport is not [""]. *)
Lemma empty_filter_value_returns_all :
  ~ list_bookings_filters_given_values.
Proof.
  intros H.
  destruct (H (stored seeded (request "futsal" 1 "09:00" "11:00") 300000)
              (Some EmptyString) None) as [r [Hr [Hp _]]].
  vm_compute in Hr. inversion Hr; subst r. clear Hr.
  vm_compute in Hp. apply Permutation_length in Hp. discriminate.
Qed.

(** C9, amended. For every optional sport and date filter,
    [list_bookings] returns exactly the stored bookings whose [sport] and
    [date] equal the given values, a value that is omitted or is the
    empty string letting every booking through, ordered by [date]
    ascending and then [start_time] ascending. *)
Theorem list_bookings_filtered_sorted
  (d : Database) (sport_q date_q : option string) :
  exists r,
    list_bookings (Some d) sport_q date_q = Ok r
    /\ Permutation r
         (map to_item
            (filter (given_filter (filter_value sport_q)
                       (filter_value date_q))
               (booking_coll d)))
    /\ StronglySorted date_start_le r.
Proof.
  unfold list_bookings. eexists. split; [reflexivity|]. split.
  - apply Permutation_map. rewrite sort_perm.
    erewrite filter_ext; [reflexivity|].
    intros b. apply query_filter_filter_value.
  - apply to_item_sorted, sort_sorted.
Qed.

(* ================================================================= *)
(** ** Overlapping bookings *)

(** On zero-padded times the order on strings is the order on hours. *)
Lemma padded_ltb (a b : string) :
  padded_time a = true -> padded_time b = true ->
  exists ha hb,
    parse_hour a = Some ha /\ parse_hour b = Some hb
    /\ String.ltb a b = (ha <? hb).
Proof.
  unfold padded_time. rewrite !andb_true_iff.
  intros [Ha La] [Hb Lb].
  pose proof (schema_times_all2
                (fun a b =>
                   implb ((String.length a =? 5)%nat
                          && (String.length b =? 5)%nat)
                     match parse_hour a, parse_hour b with
                     | Some ha, Some hb =>
                         Bool.eqb (String.ltb a b) (ha <? hb)
                     | _, _ => false
                     end) eq_refl a b Ha Hb) as H.
  simpl in H. rewrite La, Lb in H. simpl in H.
  destruct (parse_hour a) as [ha|]; [|discriminate].
  destruct (parse_hour b) as [hb|]; [|discriminate].
  exists ha, hb. repeat split. now apply Bool.eqb_prop.
Qed.

Lemma double_booked_app (l : list BookingDoc) (x : BookingDoc) :
  double_booked (l ++ [x])
  = double_booked l
    || existsb (fun b => numeric_overlap (fields b) (fields x)) l.
Proof.
  induction l as [|b r IH]; simpl; trivial.
  rewrite existsb_app, IH. simpl.
  destruct (existsb (fun x0 => numeric_overlap (fields b) (fields x0)) r),
    (numeric_overlap (fields b) (fields x)),
    (double_booked r); reflexivity.
Qed.

(** On zero-padded times the availability filter is the overlap of the
    hour intervals. *)
Lemma overlap_filter_numeric (payload : Booking) (total : Z)
  (b : BookingDoc) :
  padded_booking payload = true ->
  padded_booking (fields b) = true ->
  numeric_overlap (fields b) (dump_with_total payload total)
  = overlap_filter payload b.
Proof.
  unfold padded_booking. rewrite !andb_true_iff.
  intros [Ps Pe] [Bs Be].
  unfold numeric_overlap, overlap_filter, same_slotb. simpl.
  destruct (padded_ltb _ _ Bs Pe) as [sb [ep [E1 [E2 ->]]]].
  destruct (padded_ltb _ _ Ps Be) as [sp [eb [E3 [E4 ->]]]].
  rewrite E1, E2, E3, E4.
  now rewrite !andb_assoc.
Qed.

(** Among zero-padded requests, one more [create_booking] keeps the
    ledger free of overlapping bookings. *)
Lemma create_booking_keeps_disjoint
  (d : Database) (payload : Booking) :
  padded_booking payload = true ->
  ledger_disjoint (booking_coll d) ->
  exists d',
    snd (create_booking (Some d) payload) = Some d'
    /\ ledger_disjoint (booking_coll d').
Proof.
  intros Hp [Hall Hd]. unfold create_booking.
  destruct (find_one_sport (sport payload) (sport_coll d)) as [sd|];
    [|now exists d].
  destruct (parse_range payload) as [[s e]|]; [|now exists d].
  destruct (find_one_conflict payload (booking_coll d)) eqn:E;
    [now exists d|].
  eexists. split; [reflexivity|]. simpl. split.
  - apply Forall_app. split; trivial.
    constructor; [|constructor]. exact Hp.
  - rewrite double_booked_app, Hd. simpl.
    destruct (existsb _ (booking_coll d)) eqn:Ex; trivial.
    apply existsb_exists in Ex. destruct Ex as [b [Hin Hb]].
    simpl in Hb. rewrite overlap_filter_numeric in Hb; trivial.
    + pose proof (find_none _ _ E b Hin). congruence.
    + rewrite Forall_forall in Hall. now apply Hall.
Qed.

Lemma run_requests_keeps_disjoint (reqs : list Booking) (d : Database) :
  forallb padded_booking reqs = true ->
  ledger_disjoint (booking_coll d) ->
  exists d',
    run_requests (Some d) reqs = Some d'
    /\ ledger_disjoint (booking_coll d').
Proof.
  revert d. induction reqs as [|p r IH]; intros d Hr Hd;
    cbn [run_requests].
  - now exists d.
  - simpl in Hr. apply andb_true_iff in Hr. destruct Hr as [Hp Hr].
    destruct (create_booking_keeps_disjoint d p Hp Hd) as [d1 [-> Hd1]].
    now apply IH.
Qed.

(** C1, on the code. The two requests for futsal, court 1, 2024-06-01,
    from 9:00 to 11:00 and from 10:00 to 12:00, satisfy the schema; run
    one after the other on the seeded catalog, both are stored, and their
    hour intervals 9-11 and 10-12 overlap: ["9:00" < "12:00"] fails in
    the order on strings, so the availability query finds no conflict. *)
Theorem unpadded_times_double_booked :
  let reqs := [ request "futsal" 1 "9:00" "11:00";
                request "futsal" 1 "10:00" "12:00" ] in
  forallb Booking_valid reqs = true
  /\ String.ltb "9:00" "12:00" = false
  /\ exists d,
      run_requests (Some seeded) reqs = Some d
      /\ map fields (booking_coll d)
         = [ dump_with_total (request "futsal" 1 "9:00" "11:00") 300000;
             dump_with_total (request "futsal" 1 "10:00" "12:00") 300000 ]
      /\ double_booked (booking_coll d) = true.
Proof.
  split; [reflexivity|]. split; [reflexivity|].
  eexists. split; [reflexivity|]. split; reflexivity.
Qed.

(* ================================================================= *)
(** ** The time pattern and the hour conversion *)

(** X1. The pattern of [start_time] and [end_time] accepts exactly the 34
    strings of [schema_times]: the hours 0 to 23 followed by [":00"], the
    hours below 10 both with and without a leading zero. *)
Theorem time_pattern_exactly_schema_times (s : string) :
  time_pattern s = true <-> In s schema_times.
Proof.
  split; [apply time_pattern_schema_times|].
  intros H.
  assert (A : forallb time_pattern schema_times = true) by reflexivity.
  rewrite forallb_forall in A. now apply A.
Qed.

Lemma split_head_append (h rest : string) :
  free_of ":" h = true ->
  Py.split_head ":" (h ++ String ":" rest) = h.
Proof.
  induction h as [|c h IH]; simpl; trivial.
  rewrite andb_true_iff, negb_true_iff. intros [Hc Hh].
  now rewrite Hc, IH.
Qed.

Lemma split_head_free (h : string) :
  free_of ":" h = true -> Py.split_head ":" h = h.
Proof.
  induction h as [|c h IH]; simpl; trivial.
  rewrite andb_true_iff, negb_true_iff. intros [Hc Hh].
  now rewrite Hc, IH.
Qed.

(** X2. The hour conversion of [create_booking] reads a time up to its
    first colon only: whatever follows the first colon (minutes,
    seconds, anything) changes nothing, and a time without a colon is
    converted as a whole. *)
Theorem parse_hour_reads_up_to_colon (h rest : string) :
  free_of ":" h = true ->
  parse_hour (h ++ String ":" rest) = Py.int h
  /\ parse_hour h = Py.int h.
Proof.
  intros H. unfold parse_hour.
  now rewrite split_head_append, split_head_free.
Qed.

Lemma parse_hour_reads_up_to_colon_witness :
  parse_hour ("09" ++ String ":" "45:30") = Py.int "09"
  /\ parse_hour "09" = Py.int "09".
Proof.
  exact (parse_hour_reads_up_to_colon "09" "45:30" eq_refl).
Defined.

(* ================================================================= *)
(** ** [list_sports] beyond the first call *)

(** X3. [list_sports] is idempotent: called on the store it has left, it
    gives the same response and leaves the same store. It never touches
    the bookings, and writes nothing at all to a catalog that is not
    empty. *)
Theorem list_sports_idempotent :
  (forall db : option Database,
      list_sports (snd (list_sports db)) = list_sports db)
  /\ (forall d : Database,
         exists d',
           snd (list_sports (Some d)) = Some d'
           /\ booking_coll d' = booking_coll d
           /\ (sport_coll d <> [] -> d' = d)).
Proof.
  split.
  - intros [d|]; [|reflexivity].
    unfold list_sports.
    destruct (sport_coll d) as [|s l] eqn:E.
    + unfold insert_many_sport. rewrite E. reflexivity.
    + rewrite E.
      destruct (to_models (s :: l)) eqn:T; cbn [snd];
        rewrite E; cbv iota; now rewrite E, T.
  - intros d. unfold list_sports.
    destruct (sport_coll d) as [|s l] eqn:E.
    + unfold insert_many_sport. rewrite E.
      eexists. split; [reflexivity|]. split; [reflexivity|]. congruence.
    + rewrite E. exists d.
      destruct (to_models (s :: l)); simpl; auto.
Qed.

Lemma to_models_some (sports : list SportDoc) (r : list Sport) :
  to_models sports = Some r ->
  Forall2 (fun s m => Sport_of_doc s = Some m) sports r.
Proof.
  revert r. induction sports as [|s l IH]; simpl; intros r H.
  - inversion H. constructor.
  - destruct (Sport_of_doc s) as [m|] eqn:E; [|discriminate].
    destruct (to_models l) as [ms|]; [|discriminate].
    inversion H; subst. constructor; auto.
Qed.

Lemma to_models_none (sports : list SportDoc) (s : SportDoc) :
  In s sports -> Sport_of_doc s = None -> to_models sports = None.
Proof.
  induction sports as [|x l IH]; simpl; [tauto|].
  intros [->|Hin] Hs.
  - now rewrite Hs.
  - rewrite (IH Hin Hs). now destruct (Sport_of_doc x).
Qed.

Lemma Sport_of_doc_some (s : SportDoc) (m : Sport) :
  Sport_of_doc s = Some m ->
  Sport_valid m = true
  /\ doc_key s = Some (key m)
  /\ doc_name s = Some (name m)
  /\ doc_courts s = Some (courts m)
  /\ doc_price_per_hour s = Some (price_per_hour m)
  /\ open_hour m = get (doc_open_hour s) 8
  /\ close_hour m = get (doc_close_hour s) 22.
Proof.
  unfold Sport_of_doc.
  destruct (doc_key s) as [k|]; [|discriminate].
  destruct (doc_name s) as [n|]; [|discriminate].
  destruct (doc_courts s) as [c|]; [|discriminate].
  destruct (doc_price_per_hour s) as [p|]; [|discriminate].
  destruct (Sport_valid _) eqn:V; [|discriminate].
  intros H. inversion H; subst. simpl. auto 10.
Qed.

(** X4. When [list_sports] answers on a catalog that is not empty, it
    returns one model per stored document, in the stored order: each
    carries its document's key, name, courts and price, takes 8 and 22
    for an absent [open_hour] and [close_hour], and satisfies the field
    constraints of [Sport]. *)
Theorem list_sports_models_documents (d : Database) (r : list Sport) :
  sport_coll d <> [] ->
  fst (list_sports (Some d)) = Ok r ->
  Forall2 (fun s m =>
             doc_key s = Some (key m)
             /\ doc_name s = Some (name m)
             /\ doc_courts s = Some (courts m)
             /\ doc_price_per_hour s = Some (price_per_hour m)
             /\ open_hour m = get (doc_open_hour s) 8
             /\ close_hour m = get (doc_close_hour s) 22
             /\ Sport_valid m = true)
    (sport_coll d) r.
Proof.
  intros Hne. unfold list_sports.
  destruct (sport_coll d) as [|s l] eqn:E; [congruence|].
  rewrite E.
  destruct (to_models (s :: l)) as [ms|] eqn:T; simpl; [|discriminate].
  intros H. inversion H; subst ms.
  apply to_models_some in T.
  eapply Forall2_impl; [|exact T].
  intros a b Hab. apply Sport_of_doc_some in Hab. tauto.
Qed.

Lemma list_sports_models_documents_witness :
  Forall2 (fun s m =>
             doc_key s = Some (key m)
             /\ doc_name s = Some (name m)
             /\ doc_courts s = Some (courts m)
             /\ doc_price_per_hour s = Some (price_per_hour m)
             /\ open_hour m = get (doc_open_hour s) 8
             /\ close_hour m = get (doc_close_hour s) 22
             /\ Sport_valid m = true)
    [mkSportDoc (Some "padel") (Some "Padel") (Some 2) (Some 90000)
       None None]
    [mkSport "padel" "Padel" 2 90000 8 22].
Proof.
  apply (list_sports_models_documents
           (mkDatabase
              [mkSportDoc (Some "padel") (Some "Padel") (Some 2)
                 (Some 90000) None None] [])).
  - discriminate.
  - reflexivity.
Defined.

(** X5. One stored sport document that lacks a required field or breaks
    a field constraint of [Sport] makes [list_sports] fail as a whole:
    no sport is returned, and the store is left as it was. *)
Theorem list_sports_rejects_bad_document (d : Database) (s : SportDoc) :
  In s (sport_coll d) ->
  Sport_of_doc s = None ->
  list_sports (Some d) = (Err ValidationError, Some d).
Proof.
  intros Hin Hs. unfold list_sports.
  destruct (sport_coll d) as [|x l] eqn:E; [contradiction|].
  rewrite E. now rewrite (to_models_none _ _ Hin Hs).
Qed.

Lemma list_sports_rejects_bad_document_witness :
  let d := mkDatabase
             [mkSportDoc (Some "futsal") (Some "Futsal") (Some 0)
                (Some 150000) (Some 8) (Some 23)] [] in
  list_sports (Some d) = (Err ValidationError, Some d).
Proof.
  intros d.
  apply (list_sports_rejects_bad_document d
           (mkSportDoc (Some "futsal") (Some "Futsal") (Some 0)
              (Some 150000) (Some 8) (Some 23))).
  - left. reflexivity.
  - reflexivity.
Defined.

(* ================================================================= *)
(** ** What decides the response of [create_booking] *)

(** X6. The response of [create_booking] depends on the request's sport,
    court, date, start time and end time only: the customer's name and
    phone, the status, the notes and a total price sent by the client
    change neither the outcome nor the price returned. *)
Theorem create_booking_response_fields
  (db : option Database) (p q : Booking) :
  sport p = sport q -> court p = court q -> date p = date q ->
  start_time p = start_time q -> end_time p = end_time q ->
  fst (create_booking db p) = fst (create_booking db q).
Proof.
  destruct p, q. simpl. intros -> -> -> -> ->.
  destruct db as [d|]; [|reflexivity].
  unfold create_booking, find_one_conflict, overlap_filter, parse_range.
  cbn [sport court date start_time end_time].
  destruct (find_one_sport _ _); trivial.
  destruct (parse_hour _); trivial.
  destruct (parse_hour _); trivial.
  destruct (_ <=? _); trivial.
  destruct (find _ _); reflexivity.
Qed.

Lemma create_booking_response_fields_witness :
  fst (create_booking (Some seeded)
         (mkBooking "Bob" "0811" "futsal" 1 "2024-06-01" "09:00" "11:00"
            "pending" (Some "bring balls") (Some 1)))
  = fst (create_booking (Some seeded)
           (request "futsal" 1 "09:00" "11:00")).
Proof.
  apply create_booking_response_fields; reflexivity.
Defined.

(** X7. When the sport document of an accepted schema-valid request
    satisfies the [Sport] model, the total is the duration times the
    model's price, lies between 0 and 23 times that price, and the stored
    booking, total included, satisfies the [Booking] schema again. *)
Theorem accepted_total_within_schema
  (d : Database) (payload : Booking) (sport_doc : SportDoc) (m : Sport)
  (total : Z) (db' : option Database) :
  Booking_valid payload = true ->
  find_one_sport (sport payload) (sport_coll d) = Some sport_doc ->
  Sport_of_doc sport_doc = Some m ->
  create_booking (Some d) payload = (Ok total, db') ->
  (exists start_h end_h,
      parse_range payload = Some (start_h, end_h)
      /\ total = (end_h - start_h) * price_per_hour m)
  /\ 0 <= total <= 23 * price_per_hour m
  /\ Booking_valid (dump_with_total payload total) = true.
Proof.
  intros Hv Hs Hm Hc.
  destruct (create_booking_accepted _ _ _ _ Hc)
    as [sd [s [e [Hs' [Hr [_ [Ht _]]]]]]].
  rewrite Hs in Hs'. inversion Hs'; subst sd.
  destruct (Sport_of_doc_some _ _ Hm) as [V [_ [_ [_ [Hp _]]]]].
  rewrite Hp in Ht. simpl in Ht.
  destruct (Booking_valid_hours payload Hv)
    as [s' [e' [Es [Ee [Bs [Be R]]]]]].
  assert (Hse : s' = s /\ e' = e /\ s < e).
  { unfold parse_range in Hr. rewrite Es, Ee in Hr.
    destruct (Z.leb_spec e' s'); [discriminate|].
    inversion Hr; subst. auto. }
  destruct Hse as [-> [-> Hlt]].
  assert (P : 0 <= price_per_hour m).
  { unfold Sport_valid in V. rewrite !andb_true_iff in V.
    destruct V as [[[[[_ V] _] _] _] _]. lia. }
  assert (T : 0 <= total <= 23 * price_per_hour m) by nia.
  split; [now exists s, e|]. split; [exact T|].
  unfold Booking_valid in *. simpl.
  rewrite !andb_true_iff in *.
  destruct Hv as [[[H1 H2] H3] _]. repeat split; trivial.
  apply Z.leb_le. lia.
Qed.

Lemma accepted_total_within_schema_witness :
  (exists start_h end_h,
      parse_range (request "badminton" 6 "07:00" "22:00")
      = Some (start_h, end_h)
      /\ 900000 = (end_h - start_h) * 60000)
  /\ 0 <= 900000 <= 23 * 60000
  /\ Booking_valid
       (dump_with_total (request "badminton" 6 "07:00" "22:00") 900000)
     = true.
Proof.
  exact (accepted_total_within_schema seeded
           (request "badminton" 6 "07:00" "22:00")
           (mkSportDoc (Some "badminton") (Some "Badminton") (Some 6)
              (Some 60000) (Some 7) (Some 22))
           (mkSport "badminton" "Badminton" 6 60000 7 22)
           900000 _ eq_refl eq_refl eq_refl eq_refl).
Defined.

(** X8. A sport document without [price_per_hour] is priced at 0: every
    booking accepted for it is stored and returned with total 0. *)
Theorem missing_price_books_for_free
  (d : Database) (payload : Booking) (sport_doc : SportDoc)
  (total : Z) (db' : option Database) :
  find_one_sport (sport payload) (sport_coll d) = Some sport_doc ->
  doc_price_per_hour sport_doc = None ->
  create_booking (Some d) payload = (Ok total, db') ->
  total = 0 /\ db' = Some (stored d payload 0).
Proof.
  intros Hs Hp Hc.
  destruct (create_booking_accepted _ _ _ _ Hc)
    as [sd [s [e [Hs' [_ [_ [Ht Hd]]]]]]].
  rewrite Hs in Hs'. inversion Hs'; subst sd.
  rewrite Hp in Ht. simpl in Ht. rewrite Z.mul_0_r in Ht.
  subst total. auto.
Qed.

Lemma missing_price_books_for_free_witness :
  let d := mkDatabase
             [mkSportDoc (Some "yoga") (Some "Yoga") (Some 1) None
                None None] [] in
  let p := request "yoga" 1 "09:00" "10:00" in
  create_booking (Some d) p = (Ok 0, Some (stored d p 0))
  /\ 0 = 0 /\ Some (stored d p 0) = Some (stored d p 0).
Proof.
  intros d p.
  assert (H : create_booking (Some d) p = (Ok 0, Some (stored d p 0)))
    by reflexivity.
  split; [exact H|].
  exact (missing_price_books_for_free d p
           (mkSportDoc (Some "yoga") (Some "Yoga") (Some 1) None None None)
           0 _ eq_refl eq_refl H).
Defined.

(* ================================================================= *)
(** ** The availability check between two requests *)

(** X9. The availability filter is symmetric: a request [p] conflicts
    with the stored request [q] exactly when [q] would conflict with the
    stored [p], whatever identifiers and totals the documents carry. *)
Theorem conflict_is_symmetric
  (p q : Booking) (i j : ObjectId) (tp tq : Z) :
  overlap_filter p (mkBookingDoc i (dump_with_total q tq))
  = overlap_filter q (mkBookingDoc j (dump_with_total p tp)).
Proof.
  unfold overlap_filter. simpl.
  rewrite (String.eqb_sym (sport q)), (Z.eqb_sym (court q)),
    (String.eqb_sym (date q)).
  destruct (sport p =? sport q)%string, (court p =? court q),
    (date p =? date q)%string; simpl; trivial.
  apply andb_comm.
Qed.

Lemma find_app_last {A : Type} (f : A -> bool) (l : list A) (x : A) :
  f x = true -> find f (l ++ [x]) <> None.
Proof.
  intros H. apply find_is_some. exists x. split; trivial.
  apply in_or_app. right. now left.
Qed.

(** X10. With zero-padded times, a request that has just been accepted is
    rejected with [Conflict] when it is sent again, and the store is left
    as the first request left it. *)
Theorem repeated_request_conflicts
  (d : Database) (payload : Booking) (total : Z) (db' : option Database) :
  padded_booking payload = true ->
  create_booking (Some d) payload = (Ok total, db') ->
  create_booking db' payload = (Err Conflict, db').
Proof.
  intros Hp Hc.
  destruct (create_booking_accepted _ _ _ _ Hc)
    as [sd [s [e [Hs [Hr [_ [_ ->]]]]]]].
  unfold create_booking. cbn [stored sport_coll booking_coll].
  rewrite Hs, Hr.
  assert (F : find_one_conflict payload
                (booking_coll d
                 ++ [mkBookingDoc (N.of_nat (List.length (booking_coll d)))
                       (dump_with_total payload total)]) <> None).
  { apply find_app_last. unfold overlap_filter. simpl.
    rewrite !String.eqb_refl, Z.eqb_refl. simpl.
    unfold padded_booking in Hp. apply andb_true_iff in Hp.
    destruct Hp as [Ps Pe].
    destruct (padded_ltb _ _ Ps Pe) as [hs [he [Es [Ee ->]]]].
    unfold parse_range in Hr. rewrite Es, Ee in Hr.
    destruct (Z.leb_spec he hs); [discriminate|].
    assert (L : (hs <? he) = true) by (apply Z.ltb_lt; lia).
    now rewrite L. }
  destruct (find_one_conflict _ _); [reflexivity | congruence].
Qed.

Lemma repeated_request_conflicts_witness :
  let db' := Some (stored seeded (request "futsal" 1 "09:00" "11:00")
                     300000) in
  create_booking db' (request "futsal" 1 "09:00" "11:00")
  = (Err Conflict, db').
Proof.
  intros db'.
  exact (repeated_request_conflicts seeded
           (request "futsal" 1 "09:00" "11:00") 300000 db'
           eq_refl eq_refl).
Defined.

(* ================================================================= *)
(** ** Zero-padded times *)

(** X11. Sequential requests with zero-padded times never double-book:
    from a ledger of zero-padded bookings without overlap, whatever
    requests with zero-padded times are served one after the other, the
    ledger still holds zero-padded bookings only, no two of which overlap
    in hours on one sport, court and date. *)
Theorem padded_requests_never_double_book
  (d : Database) (reqs : list Booking) :
  forallb padded_booking reqs = true ->
  ledger_disjoint (booking_coll d) ->
  exists d',
    run_requests (Some d) reqs = Some d'
    /\ Forall (fun b => padded_booking (fields b) = true) (booking_coll d')
    /\ double_booked (booking_coll d') = false.
Proof.
  intros Hr Hd.
  destruct (run_requests_keeps_disjoint reqs d Hr Hd) as [d' [E [H1 H2]]].
  now exists d'.
Qed.

Lemma padded_requests_never_double_book_witness :
  exists d',
    run_requests (Some seeded)
      [ request "futsal" 1 "09:00" "11:00";
        request "futsal" 1 "10:00" "12:00";
        request "futsal" 1 "11:00" "12:00" ] = Some d'
    /\ Forall (fun b => padded_booking (fields b) = true) (booking_coll d')
    /\ double_booked (booking_coll d') = false.
Proof.
  apply padded_requests_never_double_book.
  - reflexivity.
  - split; [constructor | reflexivity].
Defined.

Lemma numeric_overlap_dump (a payload : Booking) (total : Z) :
  numeric_overlap a (dump_with_total payload total)
  = numeric_overlap a payload.
Proof. reflexivity. Qed.

(** X12. With zero-padded times on both sides, and the sport found and
    the range valid, [create_booking] answers [Conflict] exactly when
    some stored booking of the same sport, court and date overlaps the
    request in hours: no request is turned away without an overlap. *)
Theorem padded_conflict_iff_overlap
  (d : Database) (payload : Booking) (sport_doc : SportDoc)
  (start_h end_h : Z) :
  padded_booking payload = true ->
  Forall (fun b => padded_booking (fields b) = true) (booking_coll d) ->
  find_one_sport (sport payload) (sport_coll d) = Some sport_doc ->
  parse_range payload = Some (start_h, end_h) ->
  fst (create_booking (Some d) payload) = Err Conflict <->
  exists b, In b (booking_coll d)
            /\ numeric_overlap (fields b) payload = true.
Proof.
  intros Hp Hall Hs Hr.
  unfold create_booking. rewrite Hs, Hr.
  rewrite Forall_forall in Hall.
  split.
  - destruct (find_one_conflict payload (booking_coll d)) as [b|] eqn:E;
      [intros _ | discriminate].
    apply find_some in E. destruct E as [Hin Hb].
    exists b. split; trivial.
    rewrite <- (numeric_overlap_dump _ _ 0).
    rewrite overlap_filter_numeric; auto.
  - intros [b [Hin Hb]].
    rewrite <- (numeric_overlap_dump _ _ 0) in Hb.
    rewrite overlap_filter_numeric in Hb; auto.
    destruct (find_one_conflict payload (booking_coll d)) eqn:E;
      [reflexivity|].
    pose proof (find_none _ _ E b Hin). congruence.
Qed.

Lemma padded_conflict_iff_overlap_witness :
  let d := stored seeded (request "futsal" 1 "09:00" "11:00") 300000 in
  fst (create_booking (Some d) (request "futsal" 1 "10:00" "12:00"))
  = Err Conflict <->
  exists b, In b (booking_coll d)
            /\ numeric_overlap (fields b)
                 (request "futsal" 1 "10:00" "12:00") = true.
Proof.
  intros d.
  apply (padded_conflict_iff_overlap d
           (request "futsal" 1 "10:00" "12:00")
           (mkSportDoc (Some "futsal") (Some "Futsal") (Some 3)
              (Some 150000) (Some 8) (Some 23)) 10 12).
  - reflexivity.
  - repeat constructor.
  - reflexivity.
  - reflexivity.
Defined.

(* ================================================================= *)
(** ** Times without a leading zero *)

(** X13. Times without a leading zero also turn away requests that
    overlap nothing: wherever a booking from 1:00 to 3:00 is stored, a
    request for the same sport, court and date from 20:00 to 21:00 is
    answered [Conflict], though the hours 1-3 and 20-21 do not overlap
    (["1:00" < "21:00"] and ["20:00" < "3:00"] as strings). *)
Theorem unpadded_times_false_conflict
  (d : Database) (b : BookingDoc) (payload : Booking)
  (sport_doc : SportDoc) :
  find_one_sport (sport payload) (sport_coll d) = Some sport_doc ->
  In b (booking_coll d) ->
  same_slot (fields b) payload ->
  start_time (fields b) = "1:00" -> end_time (fields b) = "3:00" ->
  start_time payload = "20:00" -> end_time payload = "21:00" ->
  create_booking (Some d) payload = (Err Conflict, Some d)
  /\ numeric_overlap (fields b) payload = false
  /\ time_pattern (start_time (fields b)) = true
  /\ time_pattern (end_time (fields b)) = true
  /\ time_pattern (start_time payload) = true
  /\ time_pattern (end_time payload) = true.
Proof.
  intros Hs Hin Hslot B1 B2 P1 P2.
  split.
  - unfold create_booking. rewrite Hs.
    unfold parse_range. rewrite P1, P2.
    change (parse_hour "20:00") with (Some 20).
    change (parse_hour "21:00") with (Some 21).
    cbn [Z.leb Z.compare Pos.compare Pos.compare_cont].
    assert (F : find_one_conflict payload (booking_coll d) <> None).
    { apply find_is_some. exists b. split; trivial.
      apply overlap_filter_iff. split; trivial.
      rewrite B1, B2, P1, P2. split; reflexivity. }
    destruct (find_one_conflict payload (booking_coll d));
      [reflexivity | congruence].
  - unfold numeric_overlap. rewrite B1, B2, P1, P2.
    split; [|repeat split].
    apply andb_false_r.
Qed.

Lemma unpadded_times_false_conflict_witness :
  let d := stored seeded (request "futsal" 1 "1:00" "3:00") 300000 in
  create_booking (Some d) (request "futsal" 1 "20:00" "21:00")
  = (Err Conflict, Some d)
  /\ numeric_overlap
       (dump_with_total (request "futsal" 1 "1:00" "3:00") 300000)
       (request "futsal" 1 "20:00" "21:00") = false.
Proof.
  intros d.
  destruct (unpadded_times_false_conflict d
              (mkBookingDoc 0%N
                 (dump_with_total (request "futsal" 1 "1:00" "3:00")
                    300000))
              (request "futsal" 1 "20:00" "21:00")
              (mkSportDoc (Some "futsal") (Some "Futsal") (Some 3)
                 (Some 150000) (Some 8) (Some 23)))
    as [H1 [H2 _]]; try reflexivity.
  - left. reflexivity.
  - repeat split.
  - split; assumption.
Defined.

(* ================================================================= *)
(** ** [create_booking] followed by [list_bookings] *)

(** X14. A booking that has just been accepted is listed: asked for its
    sport and its date (or without one or both filters), [list_bookings]
    returns an item that carries the request's fields, the total price
    computed, and the identifier of the stored document. *)
Theorem accepted_booking_is_listed
  (d : Database) (payload : Booking) (total : Z) (db' : option Database)
  (sport_q date_q : option string) :
  create_booking (Some d) payload = (Ok total, db') ->
  sport_q = None \/ sport_q = Some (sport payload) ->
  date_q = None \/ date_q = Some (date payload) ->
  exists r,
    list_bookings db' sport_q date_q = Ok r
    /\ In (mkBookingItem
             (str_oid (N.of_nat (List.length (booking_coll d))))
             (dump_with_total payload total)) r.
Proof.
  intros Hc Hs Hd.
  destruct (create_booking_accepted _ _ _ _ Hc)
    as [sd [s [e [_ [_ [_ [_ ->]]]]]]].
  unfold list_bookings. eexists. split; [reflexivity|].
  set (b := mkBookingDoc (N.of_nat (List.length (booking_coll d)))
              (dump_with_total payload total)).
  change (mkBookingItem _ _) with (to_item b).
  apply in_map.
  apply (Permutation_in _ (Permutation_sym (sort_perm _))).
  apply filter_In. split.
  - simpl. apply in_or_app. right. now left.
  - unfold query_filter. simpl.
    destruct Hs as [->| ->], Hd as [->| ->]; simpl;
      repeat match goal with
             | |- context [negb ?c] => destruct c; simpl
             end;
      rewrite ?String.eqb_refl; reflexivity.
Qed.

Lemma accepted_booking_is_listed_witness :
  exists r,
    list_bookings
      (Some (stored seeded (request "futsal" 1 "09:00" "11:00") 300000))
      (Some "futsal") (Some "2024-06-01") = Ok r
    /\ In (mkBookingItem (str_oid 0%N)
             (dump_with_total (request "futsal" 1 "09:00" "11:00") 300000))
         r.
Proof.
  apply (accepted_booking_is_listed seeded
           (request "futsal" 1 "09:00" "11:00") 300000 _
           (Some "futsal") (Some "2024-06-01") eq_refl).
  - right. reflexivity.
  - right. reflexivity.
Defined.

(* ================================================================= *)
(** ** The stores the handlers reach *)

Lemma serve_seeded_or_empty (d : Database) (r : Request) :
  seeded_or_empty d ->
  exists d', serve (Some d) r = Some d' /\ seeded_or_empty d'.
Proof.
  intros Hd. destruct r as [|payload|sq dq].
  - destruct d as [sports ledger].
    destruct Hd as [[Hs Hl]|[Hs Hl]]; simpl in Hs, Hl; subst.
    + eexists. split; [reflexivity|]. right. simpl. auto.
    + eexists. split; [reflexivity|]. right. simpl. auto.
  - simpl. unfold create_booking.
    destruct (find_one_sport (sport payload) (sport_coll d)) as [sd|] eqn:Es;
      [|now exists d].
    destruct (parse_range payload) as [[s e]|] eqn:Er; [|now exists d].
    destruct (find_one_conflict payload (booking_coll d)); [now exists d|].
    eexists. split; [reflexivity|].
    destruct Hd as [[Hs Hl]|[Hs Hl]].
    + rewrite Hs in Es. discriminate.
    + right. simpl. split; trivial.
      apply Forall_app. split; trivial.
      constructor; [|constructor].
      exists sd, s, e. rewrite <- Hs.
      split; [exact Es|]. split; [exact Er | reflexivity].
  - now exists d.
Qed.

(** X15. Starting from the empty store, whatever requests the three
    handlers serve, in whatever order, the catalog is empty (and then so
    is the ledger) or holds exactly the three defaults, never more; and
    every stored booking names one of these sports, has an end hour after
    its start hour, and carries as total its duration times that sport's
    price. *)
Theorem reachable_stores (rs : list Request) :
  exists d,
    serve_all (Some (mkDatabase [] [])) rs = Some d
    /\ seeded_or_empty d.
Proof.
  assert (G : forall d, seeded_or_empty d ->
                        exists d', serve_all (Some d) rs = Some d'
                                   /\ seeded_or_empty d').
  { induction rs as [|r rest IH]; intros d Hd; cbn [serve_all].
    - now exists d.
    - destruct (serve_seeded_or_empty d r Hd) as [d1 [-> H1]].
      now apply IH. }
  apply G. left. auto.
Qed.

Lemma create_booking_appends (d : Database) (payload : Booking) :
  exists d' tail,
    snd (create_booking (Some d) payload) = Some d'
    /\ sport_coll d' = sport_coll d
    /\ booking_coll d' = (booking_coll d ++ tail)%list
    /\ (List.length tail <= 1)%nat.
Proof.
  unfold create_booking.
  destruct (find_one_sport (sport payload) (sport_coll d)) as [sd|].
  2: { exists d, []. rewrite app_nil_r. simpl. repeat split. lia. }
  destruct (parse_range payload) as [[s e]|].
  2: { exists d, []. rewrite app_nil_r. simpl. repeat split. lia. }
  destruct (find_one_conflict payload (booking_coll d)).
  { exists d, []. rewrite app_nil_r. simpl. repeat split. lia. }
  eexists. eexists. simpl. repeat split. simpl. lia.
Qed.

(** X16. [create_booking] never changes the sport collection and never
    alters or removes a stored booking: after any sequence of requests
    the ledger is the former ledger followed by the new bookings, at most
    one for each request. *)
Theorem run_requests_append_only (reqs : list Booking) (d : Database) :
  exists d' tail,
    run_requests (Some d) reqs = Some d'
    /\ sport_coll d' = sport_coll d
    /\ booking_coll d' = (booking_coll d ++ tail)%list
    /\ (List.length tail <= List.length reqs)%nat.
Proof.
  revert d. induction reqs as [|p r IH]; intros d; cbn [run_requests].
  - exists d, []. rewrite app_nil_r. simpl. auto.
  - destruct (create_booking_appends d p) as [d1 [t1 [-> [S1 [B1 L1]]]]].
    destruct (IH d1) as [d2 [t2 [E2 [S2 [B2 L2]]]]].
    exists d2, (t1 ++ t2)%list. split; trivial.
    split; [congruence|]. split.
    + rewrite B2, B1. now rewrite app_assoc.
    + rewrite length_app. simpl. lia.
Qed.

(* ================================================================= *)
(** ** [test_database] *)

(** X17. In the response of [test_database] the entries [database_url]
    and [database_name] tell only whether the environment variables
    [DATABASE_URL] and [DATABASE_NAME] are set to a non-empty value: what
    was written there from the handle, its [name] included, is always
    overwritten. The backend is always reported running, and the
    connection status is ["Connected"] exactly when the import gives a
    handle. *)
Theorem test_database_reports_environment (imp : Imported) (env : Environ) :
  let r := test_database imp env in
  backend r = "✅ Running"
  /\ database_url r
     = Some (if Py.truthy (DATABASE_URL env) then "✅ Set"
             else "❌ Not Set")
  /\ database_name r
     = Some (if Py.truthy (DATABASE_NAME env) then "✅ Set"
             else "❌ Not Set")
  /\ (connection_status r = "Connected" <->
      exists db, imp = ImportGives (Some db)).
Proof.
  destruct imp as [msg|[db|]]; simpl.
  - repeat split; try discriminate. intros [db H]. discriminate.
  - destruct (list_collection_names db); simpl; repeat split;
      intros; now exists db.
  - repeat split; try discriminate. intros [db H]. discriminate.
Qed.

(** X18. [test_database] reports at most ten collections: the first ten
    names of the listing when the import gives a handle whose listing
    succeeds, and none otherwise; and it reports the database as
    connected and working exactly in that case. *)
Theorem test_database_collections (imp : Imported) (env : Environ) :
  let r := test_database imp env in
  (List.length (collections r) <= 10)%nat
  /\ (forall db names,
         imp = ImportGives (Some db) ->
         list_collection_names db = inr names ->
         collections r = firstn 10 names)
  /\ ((forall db names,
          imp = ImportGives (Some db) ->
          list_collection_names db <> inr names) ->
      collections r = [])
  /\ (database r = "✅ Connected & Working" <->
      exists db names,
        imp = ImportGives (Some db)
        /\ list_collection_names db = inr names).
Proof.
  unfold test_database.
  destruct imp as [msg|[db|]].
  - cbn. split; [lia|]. split; [discriminate|]. split; [trivial|].
    split; [discriminate|]. intros [db [names [H _]]]. discriminate.
  - destruct (list_collection_names db) as [e|names] eqn:E.
    + cbn. split; [lia|]. split.
      * intros db' names H. inversion H; subst db'. congruence.
      * split; [trivial|]. split; [discriminate|].
        intros [db' [names [H H']]]. inversion H; subst db'. congruence.
    + cbn [set_database collections database].
      split; [apply firstn_le_length|]. split.
      * intros db' names' H H'. inversion H; subst db'. congruence.
      * split.
        -- intros H. exfalso. now apply (H db names).
        -- split; [intros _; now exists db, names | trivial].
  - cbn. split; [lia|]. split; [discriminate|]. split; [trivial|].
    split; [discriminate|]. intros [db [names [H _]]]. discriminate.
Qed.

(* ================================================================= *)
(** ** [list_bookings] on filters that match nothing *)

Lemma filter_nil_when_none {A : Type} (f : A -> bool) (l : list A) :
  (forall x, In x l -> f x = false) -> filter f l = [].
Proof.
  induction l as [|x l IH]; simpl; trivial.
  intros H. rewrite (H x (or_introl eq_refl)).
  apply IH. intros y Hy. apply H. now right.
Qed.

(** X19. A sport filter that no stored booking carries is no error:
    [list_bookings] answers with the empty list, whatever the date
    filter; and with both filters omitted or empty it returns as many
    items as there are stored bookings. *)
Theorem list_bookings_unknown_sport (d : Database) (s : string) :
  s <> EmptyString ->
  (forall b, In b (booking_coll d) -> sport (fields b) <> s) ->
  (forall date_q, list_bookings (Some d) (Some s) date_q = Ok [])
  /\ (forall sport_q date_q r,
         filter_value sport_q = None -> filter_value date_q = None ->
         list_bookings (Some d) sport_q date_q = Ok r ->
         List.length r = List.length (booking_coll d)).
Proof.
  intros Hs Hnone. split.
  - intros date_q. unfold list_bookings.
    rewrite filter_nil_when_none; [reflexivity|].
    intros b Hb. unfold query_filter. simpl.
    destruct (String.eqb_spec s EmptyString) as [E|_]; [contradiction|].
    simpl.
    destruct (String.eqb_spec (sport (fields b)) s) as [E|_]; trivial.
    exfalso. now apply (Hnone b).
  - intros sport_q date_q r Fs Fd. unfold list_bookings.
    intros H. inversion H. rewrite length_map.
    rewrite (Permutation_length (sort_perm _)).
    erewrite filter_ext.
    2: { intros b. rewrite query_filter_filter_value, Fs, Fd.
         reflexivity. }
    clear. induction (booking_coll d) as [|x l IH]; simpl; auto.
Qed.

Lemma list_bookings_unknown_sport_witness :
  let d := stored seeded (request "futsal" 1 "09:00" "11:00") 300000 in
  (forall date_q, list_bookings (Some d) (Some "golf") date_q = Ok [])
  /\ (forall sport_q date_q r,
         filter_value sport_q = None -> filter_value date_q = None ->
         list_bookings (Some d) sport_q date_q = Ok r ->
         List.length r = List.length (booking_coll d)).
Proof.
  intros d. apply list_bookings_unknown_sport.
  - discriminate.
  - intros b [<-|[]]. discriminate.
Defined.
